(** * plugin-twitter: session lifecycle manager

    A shallow embedding of [packages/plugin-twitter/src/index.ts]:
    the [TwitterClient] bundle, the [TwitterClientManager] registry
    ([createClient], [getClient], [stopClient], [stopAllClients],
    [getClientKey]) and the plugin boundary [TwitterClientInterface.start].

    JavaScript values are a small tagged union, the registry's [Map] is an
    association list in insertion order, and the effects of the code
    (logging, calls into the collaborators, mutation of the registry and of
    the runtime's settings) are threaded through a state-and-exception
    monad over a [World]. *)

From stdpp Require Import base option list strings gmap.

Open Scope string_scope.

(** ** JavaScript values *)

Module Js.

(** The values that settings, secrets and credentials range over. Numbers
    are kept integral; that is all the truthiness test looks at. *)
Inductive val : Type :=
| Undefined
| Null
| Bool (b : bool)
| Num (n : Z)
| Str (s : string).

#[global] Instance val_eq_dec : EqDecision val.
Proof. solve_decision. Defined.

(** ToBoolean. *)
Definition truthy (v : val) : bool :=
  match v with
  | Undefined | Null => false
  | Bool b => b
  | Num n => negb (n =? 0)%Z
  | Str s => negb (String.eqb s "")
  end.

(** [a || b]. *)
Definition or (a b : val) : val := if truthy a then a else b.

(** [a && b]. *)
Definition and (a b : val) : val := if truthy a then b else a.

(** [a === b] on these values. *)
Definition strict_eq (a b : val) : bool := bool_decide (a = b).

(** [v !== undefined]. *)
Definition defined (v : val) : bool := negb (strict_eq v Undefined).

(** [o?.k] for an object that may itself be undefined. *)
Definition opt_get (o : option (gmap string val)) (k : string) : val :=
  match o with
  | None => Undefined
  | Some m => default Undefined (m !! k)
  end.

(** [o.k] on an object. *)
Definition get (m : gmap string val) (k : string) : val :=
  default Undefined (m !! k).

End Js.

Infix "|||" := Js.or (at level 50, left associativity).
Infix "&&&" := Js.and (at level 40, left associativity).

(** ** The host runtime *)

(** [runtime.character]: the two nested mappings the plugin reads. *)
Record Character : Type := {
  settings : option (gmap string Js.val);
  secrets : option (gmap string Js.val);
}.

(** What the plugin consumes from [@elizaos/core]. The implementations live
    outside this package, so they are an interface here: [S] is whatever
    state the runtime object keeps behind [getSetting]/[setSetting]. *)
Class Host (S : Type) : Type := {
  getSetting : S → string → Js.val;
  setSetting : S → string → Js.val → bool → S;
  character : S → Character;
  stringToUuid : string → string;
}.

(** ** Registry keys *)

Definition UUID : Type := string.

(** [getClientKey]: the template literal [`${clientId}-${agentId}`]. *)
Definition getClientKey (clientId : string) (agentId : UUID) : string :=
  clientId +:+ "-" +:+ agentId.

(** ** Sessions and their collaborators *)

(** The sub-controllers are external collaborators; all the manager ever
    does with them is construct them and call [init] on the base client.
    Each is represented by the handle it was bound to. *)
Record ClientBase : Type := { base_owner : nat }.
Record TwitterPostClient : Type := { post_base : ClientBase }.
Record TwitterInteractionClient : Type := { interaction_base : ClientBase }.
Record TwitterSpaceClient : Type := { space_base : ClientBase }.

(** [class TwitterClient]. [oid] is the identity of the object: two
    references denote the same instance exactly when their [oid]s agree. *)
Record TwitterClient : Type := {
  oid : nat;
  name : string;
  client : ClientBase;
  post : TwitterPostClient;
  interaction : TwitterInteractionClient;
  space : option TwitterSpaceClient;
}.

#[global] Instance ClientBase_eq_dec : EqDecision ClientBase.
Proof. solve_decision. Defined.
#[global] Instance TwitterPostClient_eq_dec : EqDecision TwitterPostClient.
Proof. solve_decision. Defined.
#[global] Instance TwitterInteractionClient_eq_dec : EqDecision TwitterInteractionClient.
Proof. solve_decision. Defined.
#[global] Instance TwitterSpaceClient_eq_dec : EqDecision TwitterSpaceClient.
Proof. solve_decision. Defined.
#[global] Instance TwitterClient_eq_dec : EqDecision TwitterClient.
Proof. solve_decision. Defined.

(** ** Effects *)

(** A thrown value. *)
Definition Error : Type := string.

Inductive Level : Type := Info | Warn | Err.

Inductive Collaborator : Type := Base | Post | Interaction | Space.

(** What the code does to the outside, in the order it does it. *)
Inductive Event : Type :=
| EvConsole (msg : string)
| EvLog (lvl : Level) (msg : string) (err : option Error)
| EvSetSetting (key : string) (v : Js.val) (secret : bool)
| EvConstruct (o : nat)
| EvNew (k : Collaborator) (o : nat)
| EvInit (o : nat)
| EvStop (o : nat).

#[global] Instance Level_eq_dec : EqDecision Level.
Proof. solve_decision. Defined.
#[global] Instance Collaborator_eq_dec : EqDecision Collaborator.
Proof. solve_decision. Defined.
#[global] Instance Event_eq_dec : EqDecision Event.
Proof. solve_decision. Defined.

(** How the collaborators behave: whether a constructor throws, whether the
    promise of [init] rejects, whether a session's [stop] throws. [None] is
    success. Constructors and [init] are indexed by the session under
    construction, so a retry may fare differently. *)
Record Collab : Type := {
  new_outcome : Collaborator → nat → option Error;
  init_outcome : nat → option Error;
  stop_outcome : nat → option Error;
}.

(** The mutable state the code runs against. [clients] is the [Map] of the
    manager, entries in insertion order; [instance] tells whether the static
    singleton has been created; [next_oid] allocates object identities. *)
Record World (S : Type) : Type := mkWorld {
  agentId : UUID;
  rt : S;
  instance : bool;
  clients : list (string * TwitterClient);
  next_oid : nat;
  trace : list Event;
}.
Arguments mkWorld {S}.
Arguments agentId {S}.
Arguments rt {S}.
Arguments instance {S}.
Arguments clients {S}.
Arguments next_oid {S}.
Arguments trace {S}.

Inductive Result (A : Type) : Type :=
| Returned (a : A)
| Threw (e : Error).
Arguments Returned {A}.
Arguments Threw {A}.

(** Computations that read and write the world and may throw. *)
Definition M (S A : Type) : Type := World S → Result A * World S.

#[global] Instance M_ret {S} : MRet (M S) := λ A a w, (Returned a, w).
#[global] Instance M_bind {S} : MBind (M S) := λ A B k m w,
  match m w with
  | (Returned a, w') => k a w'
  | (Threw e, w') => (Threw e, w')
  end.

Definition throw {S A} (e : Error) : M S A := λ w, (Threw e, w).

(** [try { m } catch (error) { h error }]. *)
Definition try_catch {S A} (m : M S A) (h : Error → M S A) : M S A := λ w,
  match m w with
  | (Returned a, w') => (Returned a, w')
  | (Threw e, w') => h e w'
  end.

(** ** The [Map] of the manager *)

Module JsMap.
Section JsMap.
Context {V : Type}.

Fixpoint get (m : list (string * V)) (k : string) : option V :=
  match m with
  | [] => None
  | (k', v) :: m => if decide (k' = k) then Some v else get m k
  end.

(** [set] overwrites in place or appends. *)
Fixpoint set (m : list (string * V)) (k : string) (v : V) : list (string * V) :=
  match m with
  | [] => [(k, v)]
  | (k', v') :: m => if decide (k' = k) then (k, v) :: m else (k', v') :: set m k v
  end.

Definition delete (m : list (string * V)) (k : string) : list (string * V) :=
  filter (λ e, e.1 ≠ k) m.

Definition keys (m : list (string * V)) : list string := m.*1.

(** Keys of a [Map] are unique. *)
Definition wf (m : list (string * V)) : Prop := NoDup (keys m).
End JsMap.
End JsMap.

(** ** Primitive actions *)

Section Actions.
Context {S : Type} `{!Host S}.

Definition emit (e : Event) : M S unit := λ w,
  (Returned (),
   mkWorld (agentId w) (rt w) (instance w) (clients w) (next_oid w) (trace w ++ [e])).

Definition console_log (msg : string) : M S unit := emit (EvConsole msg).
Definition logger_info (msg : string) : M S unit := emit (EvLog Info msg None).
Definition logger_warn (msg : string) : M S unit := emit (EvLog Warn msg None).
Definition logger_error (msg : string) (error : Error) : M S unit :=
  emit (EvLog Err msg (Some error)).

(** [runtime.getSetting(key)]. *)
Definition runtime_getSetting (key : string) : M S Js.val := λ w,
  (Returned (getSetting (rt w) key), w).

(** [runtime.setSetting(key, v, secret)]. *)
Definition runtime_setSetting (key : string) (v : Js.val) (secret : bool) : M S unit := λ w,
  (Returned (),
   mkWorld (agentId w) (setSetting (rt w) key v secret) (instance w) (clients w)
     (next_oid w) (trace w ++ [EvSetSetting key v secret])).

(** [runtime.agentId] and [runtime.character]. *)
Definition runtime_agentId : M S UUID := λ w, (Returned (agentId w), w).
Definition runtime_character : M S Character := λ w, (Returned (character (rt w)), w).

(** [this.clients.get], [.set], [.delete], [.entries()]. *)
Definition clients_get (key : string) : M S (option TwitterClient) := λ w,
  (Returned (JsMap.get (clients w) key), w).

Definition clients_set (key : string) (c : TwitterClient) : M S unit := λ w,
  (Returned (),
   mkWorld (agentId w) (rt w) (instance w) (JsMap.set (clients w) key c)
     (next_oid w) (trace w)).

Definition clients_delete (key : string) : M S unit := λ w,
  (Returned (),
   mkWorld (agentId w) (rt w) (instance w) (JsMap.delete (clients w) key)
     (next_oid w) (trace w)).

Definition clients_entries : M S (list (string * TwitterClient)) := λ w,
  (Returned (clients w), w).

(** Allocation of the object behind [new TwitterClient(...)]. *)
Definition alloc : M S nat := λ w,
  (Returned (next_oid w),
   mkWorld (agentId w) (rt w) (instance w) (clients w) (Datatypes.S (next_oid w))
     (trace w ++ [EvConstruct (next_oid w)])).

(** Outcome of a call into a collaborator. *)
Definition outcome (o : option Error) : M S unit :=
  match o with
  | Some e => throw e
  | None => mret ()
  end.
End Actions.

(** ** [TwitterClient] and [TwitterClientManager] *)

Section Manager.
Context {S : Type} `{!Host S} (env : Collab).

Definition new_collaborator (k : Collaborator) (o : nat) : M S unit :=
  emit (EvNew k o);; outcome (new_outcome env k o).

(** [constructor(runtime)]. *)
Definition new_TwitterClient : M S TwitterClient :=
  o ← alloc;
  console_log "*** CONSTRUCTING TWITTER CLIENT";;
  console_log "*** RUNTIME";;
  new_collaborator Base o;;
  let base := {| base_owner := o |} in
  new_collaborator Post o;;
  new_collaborator Interaction o;;
  enable ← runtime_getSetting "TWITTER_SPACES_ENABLE";
  sp ← (if Js.strict_eq enable (Js.Bool true)
        then new_collaborator Space o;; mret (Some {| space_base := base |})
        else mret None);
  mret {| oid := o; name := "twitter"; client := base;
          post := {| post_base := base |};
          interaction := {| interaction_base := base |};
          space := sp |}.

(** [TwitterClient.stop]: the body logs a warning and does nothing else.
    [stop_outcome] leaves room for the call to throw, which is the case
    the [try]/[catch] blocks of the manager are written for. *)
Definition TwitterClient_stop (c : TwitterClient) : M S unit :=
  emit (EvStop (oid c));;
  logger_warn "Twitter client does not support stopping yet";;
  outcome (stop_outcome env (oid c)).

(** [client.client.init()]: the call, and the [await] of its promise. *)
Definition init_call (c : TwitterClient) : M S unit := emit (EvInit (oid c)).
Definition init_await (c : TwitterClient) : M S unit :=
  outcome (init_outcome env (oid c)).

(** [getInstance]. *)
Definition getInstance : M S unit := λ w,
  (Returned (),
   mkWorld (agentId w) (rt w) true (clients w) (next_oid w) (trace w)).

Definition getClient (clientId : string) (agentId : UUID) : M S (option TwitterClient) :=
  clients_get (getClientKey clientId agentId).

(** Lines 61-64 of [createClient], ahead of the [try]. *)
Definition createClient_prelude (clientId : string) : M S unit :=
  console_log ("Creating client " +:+ clientId);;
  v ← runtime_getSetting "TWITTER_2FA_SECRET";
  if Js.strict_eq v Js.Null
  then runtime_setSetting "TWITTER_2FA_SECRET" Js.Undefined false
  else mret ().

(** The [catch] block of [createClient]. *)
Definition createClient_catch {A} (clientId : string) (error : Error) : M S A :=
  logger_error ("Failed to create Twitter client for " +:+ clientId +:+ ":") error;;
  throw error.

(** The statements after [await client.client.init()] has resolved. *)
Definition createClient_store (clientId : string) (c : TwitterClient) : M S TwitterClient :=
  console_log "*** CLIENT INITIALIZED";;
  a ← runtime_agentId;
  clients_set (getClientKey clientId a) c;;
  console_log "*** CLIENT STORED";;
  logger_info ("Created Twitter client for " +:+ clientId);;
  mret c.

(** [createClient], run to completion without anything else interleaved. *)
Definition createClient (clientId : string) : M S TwitterClient :=
  createClient_prelude clientId;;
  try_catch
    (a ← runtime_agentId;
     existingClient ← getClient clientId a;
     match existingClient with
     | Some c =>
         logger_info ("Twitter client already exists for " +:+ clientId);;
         mret c
     | None =>
         console_log "*** CREATING NEW CLIENT";;
         c ← new_TwitterClient;
         console_log "*** CLIENT";;
         init_call c;;
         init_await c;;
         createClient_store clientId c
     end)
    (createClient_catch clientId).

(** *** [createClient] as the event loop runs it

    An [async] function runs without interruption up to its [await] and
    again from there once the promise settles. [createClient_begin] is
    the first stretch: it ends with the call resolved (an existing client
    returned, or an error thrown by a constructor) or suspended on
    [init]. [createClient_resume] is the second stretch. *)
Inductive Suspension : Type :=
| Resolved (c : TwitterClient)
| AwaitingInit (c : TwitterClient).

Definition createClient_begin (clientId : string) : M S Suspension :=
  createClient_prelude clientId;;
  try_catch
    (a ← runtime_agentId;
     existingClient ← getClient clientId a;
     match existingClient with
     | Some c =>
         logger_info ("Twitter client already exists for " +:+ clientId);;
         mret (Resolved c)
     | None =>
         console_log "*** CREATING NEW CLIENT";;
         c ← new_TwitterClient;
         console_log "*** CLIENT";;
         init_call c;;
         mret (AwaitingInit c)
     end)
    (createClient_catch clientId).

Definition createClient_resume (clientId : string) (c : TwitterClient) : M S TwitterClient :=
  try_catch
    (init_await c;;
     createClient_store clientId c)
    (createClient_catch clientId).

(** [stopClient]. *)
Definition stopClient (clientId : string) (agentId : UUID) : M S unit :=
  let key := getClientKey clientId agentId in
  client ← clients_get key;
  match client with
  | Some c =>
      try_catch
        (TwitterClient_stop c;;
         clients_delete key;;
         logger_info ("Stopped Twitter client for " +:+ clientId))
        (λ error,
           logger_error ("Error stopping Twitter client for " +:+ clientId +:+ ":") error)
  | None => mret ()
  end.

(** The body of the loop of [stopAllClients] for one entry. *)
Definition stopAllClients_body (key : string) (c : TwitterClient) : M S unit :=
  try_catch
    (TwitterClient_stop c;;
     clients_delete key)
    (λ error, logger_error ("Error stopping Twitter client " +:+ key +:+ ":") error).

(** [for (const [key, client] of this.clients.entries())]. The body only
    ever deletes the entry it is visiting, so the live iterator sees the
    entries that were there when the loop began, in insertion order. *)
Fixpoint stopAllClients_loop (entries : list (string * TwitterClient)) : M S unit :=
  match entries with
  | [] => mret ()
  | (key, c) :: entries => stopAllClients_body key c;; stopAllClients_loop entries
  end.

Definition stopAllClients : M S unit :=
  entries ← clients_entries;
  stopAllClients_loop entries.
End Manager.


(** ** The plugin boundary: [TwitterClientInterface.start] *)

Section Plugin.
Context {S : Type} `{!Host S} (env : Collab).

(** One property of the object literal [twitterConfig]:
    [getSetting(key) || character.settings?.key || character.secrets?.key]. *)
Definition resolve (s : S) (key : string) : Js.val :=
  getSetting s key
  ||| Js.opt_get (settings (character s)) key
  ||| Js.opt_get (secrets (character s)) key.

(** [Object.entries(twitterConfig)]. *)
Definition twitterConfig (s : S) : list (string * Js.val) :=
  [ ("TWITTER_USERNAME", resolve s "TWITTER_USERNAME");
    ("TWITTER_PASSWORD", resolve s "TWITTER_PASSWORD");
    ("TWITTER_EMAIL", resolve s "TWITTER_EMAIL");
    ("TWITTER_2FA_SECRET", resolve s "TWITTER_2FA_SECRET") ].

(** [Object.fromEntries(... .filter(([_, v]) => v !== undefined))]. *)
Definition config (s : S) : gmap string Js.val :=
  list_to_map (filter (λ e, e.2 ≠ Js.Undefined) (twitterConfig s)).

(** The condition of the [if] inside the [try] of [start]. *)
Definition enough_settings (cfg : gmap string Js.val) : bool :=
  Js.truthy
    (Js.get cfg "TWITTER_USERNAME"
     &&& (Js.get cfg "TWITTER_PASSWORD" &&& Js.get cfg "TWITTER_EMAIL")).

(** The object [start] returns; its only method is [stop]. *)
Inductive ClientInstance : Type := clientInstance.

Definition ClientInstance_stop (_ : ClientInstance) : M S unit := stopAllClients env.

Definition runtime_config : M S (gmap string Js.val) := λ w, (Returned (config (rt w)), w).

Definition start : M S ClientInstance :=
  console_log "*** STARTING TWITTER CLIENT";;
  console_log "*** RUNTIME";;
  getInstance;;
  cfg ← runtime_config;
  console_log "*** TWITTER CONFIG";;
  try_catch
    (if enough_settings cfg
     then
       logger_info "Creating default Twitter client from character settings";;
       console_log "*** CREATING DEFAULT CLIENT";;
       createClient env (stringToUuid "default");;
       mret ()
     else mret ())
    (λ error, logger_error "Failed to create default Twitter client:" error);;
  mret clientInstance.
End Plugin.

(** ** Calls to [createClient] in flight together *)

Section EventLoop.
Context {S : Type} `{!Host S} (env : Collab).



End EventLoop.

(** ** Observations on traces *)

Definition is_construct (e : Event) : bool :=
  match e with EvConstruct _ => true | _ => false end.

Definition is_init (e : Event) : bool :=
  match e with EvInit _ => true | _ => false end.

(** How many sessions were constructed, how many [init] calls were made. *)
Definition constructions (tr : list Event) : nat := length (List.filter is_construct tr).
Definition inits (tr : list Event) : nat := length (List.filter is_init tr).

(** The sessions whose [stop] was invoked, in order. *)
Definition stops (tr : list Event) : list nat :=
  omap (λ e, match e with EvStop o => Some o | _ => None end) tr.

(** The errors reported through [logger.error], in order. *)
Definition errors_logged (tr : list Event) : list Error :=
  omap (λ e, match e with EvLog Err _ (Some err) => Some err | _ => None end) tr.

(** The first error the collaborators raise while [createClient] builds and
    initializes session [o], in the order the code calls them: the
    constructors of the base, posting and interaction clients, that of the
    Spaces client when [spaces] tells that it is constructed, then [init]. *)
Definition first_failure (env : Collab) (spaces : bool) (o : nat) : option Error :=
  match new_outcome env Base o with
  | Some e => Some e
  | None =>
      match new_outcome env Post o with
      | Some e => Some e
      | None =>
          match new_outcome env Interaction o with
          | Some e => Some e
          | None =>
              match (if spaces then new_outcome env Space o else None) with
              | Some e => Some e
              | None => init_outcome env o
              end
          end
      end
  end.

(** The keys of the entries whose [stop] returns. *)
Definition stopped_keys (env : Collab) (entries : list (string * TwitterClient)) : list string :=
  (filter (λ e, stop_outcome env (oid e.2) = None) entries).*1.


(** ** The specification's wording, for comparison *)

Module Spec.

(** "The first source yielding a defined value wins". *)
Fixpoint first_defined (sources : list Js.val) : Js.val :=
  match sources with
  | [] => Js.Undefined
  | v :: sources => if Js.defined v then v else first_defined sources
  end.

(** "Sufficient iff username is present and both password and email are
    present". *)
Definition sufficient (cfg : gmap string Js.val) : Prop :=
  is_Some (cfg !! "TWITTER_USERNAME")
  ∧ is_Some (cfg !! "TWITTER_PASSWORD")
  ∧ is_Some (cfg !! "TWITTER_EMAIL").


End Spec.

(** ** A small host, for running the code on concrete inputs *)

Module Fixture.

(** The settings are a list of bindings, most recent first. *)
Record Runtime : Type := {
  store : list (string * Js.val);
  persona : Character;
}.

#[global] Instance host : Host Runtime := {|
  getSetting s k := default Js.Undefined (JsMap.get (store s) k);
  setSetting s k v _ := {| store := (k, v) :: store s; persona := persona s |};
  character := persona;
  stringToUuid s := s;
|}.

Definition no_character : Character := {| settings := None; secrets := None |}.

Definition runtime (st : list (string * Js.val)) (ch : Character) : Runtime :=
  {| store := st; persona := ch |}.

Definition world (r : Runtime) (cs : list (string * TwitterClient)) (next : nat) : World Runtime :=
  mkWorld "agent" r false cs next [].

(** Collaborators that never fail. *)
Definition reliable : Collab :=
  {| new_outcome := λ _ _, None; init_outcome := λ _, None; stop_outcome := λ _, None |}.


(** The first session's [stop] throws; the others stop. *)
Definition stubborn : Collab :=
  {| new_outcome := λ _ _, None;
     init_outcome := λ _, None;
     stop_outcome := λ o, if decide (o = 0) then Some "stop failed" else None |}.

(** The session [new TwitterClient] builds for object [o], without and with
    the Spaces controller. *)
Definition session (o : nat) : TwitterClient :=
  {| oid := o; name := "twitter"; client := {| base_owner := o |};
     post := {| post_base := {| base_owner := o |} |};
     interaction := {| interaction_base := {| base_owner := o |} |};
     space := None |}.

Definition session_with_space (o : nat) : TwitterClient :=
  {| oid := o; name := "twitter"; client := {| base_owner := o |};
     post := {| post_base := {| base_owner := o |} |};
     interaction := {| interaction_base := {| base_owner := o |} |};
     space := Some {| space_base := {| base_owner := o |} |} |}.

(** A runtime with nothing configured, and a world with an empty registry. *)
Definition bare : Runtime := runtime [] no_character.
Definition fresh : World Runtime := world bare [] 0.

(** A world whose registry already holds the default client, and whose
    runtime reads [TWITTER_2FA_SECRET] as [null]. *)
Definition settled : World Runtime :=
  world (runtime [("TWITTER_2FA_SECRET", Js.Null)] no_character)
    [(getClientKey "default" "agent", session 0)] 1.

(** A registry with two sessions. *)
Definition pair : World Runtime :=
  world bare [(getClientKey "a" "agent", session 0); (getClientKey "b" "agent", session 1)] 2.

(** Username set to the empty string at the runtime, to a name in the
    character settings. *)
Definition shadowed : Runtime :=
  runtime [("TWITTER_USERNAME", Js.Str "")]
    {| settings := Some {[ "TWITTER_USERNAME" := Js.Str "b" ]}; secrets := None |}.

(** Runtime setting and character setting both name a user. *)
Definition layered : Runtime :=
  runtime [("TWITTER_USERNAME", Js.Str "a")]
    {| settings := Some {[ "TWITTER_USERNAME" := Js.Str "b" ]}; secrets := None |}.

(** Credentials only in the character secrets, the username empty. *)
Definition blank_username : Runtime :=
  runtime []
    {| settings := None;
       secrets := Some (list_to_map [("TWITTER_USERNAME", Js.Str "");
                                     ("TWITTER_PASSWORD", Js.Str "p");
                                     ("TWITTER_EMAIL", Js.Str "e@x.com")]) |}.

End Fixture.

(** * Properties *)

(** ** Strings *)

Lemma string_app_nil (t : string) : "" +:+ t = t.
Proof. reflexivity. Qed.

Lemma string_app_cons (a : Ascii.ascii) (s t : string) :
  String a s +:+ t = String a (s +:+ t).
Proof. reflexivity. Qed.

Lemma string_app_length (s t : string) :
  String.length (s +:+ t) = String.length s + String.length t.
Proof.
  induction s as [|a s IH]; [done|].
  rewrite string_app_cons. simpl. by rewrite IH.
Qed.

Lemma string_app_inj_l (s t1 t2 : string) : s +:+ t1 = s +:+ t2 → t1 = t2.
Proof.
  induction s as [|a s IH]; [done|].
  rewrite !string_app_cons. intros H. apply IH. by injection H.
Qed.

(** Two concatenations that agree and whose right parts have the same
    length agree part by part. *)
Lemma string_app_inj_length (s1 s2 t1 t2 : string) :
  s1 +:+ t1 = s2 +:+ t2 →
  String.length t1 = String.length t2 →
  s1 = s2 ∧ t1 = t2.
Proof.
  revert s2. induction s1 as [|a s1 IH]; intros [|b s2];
    rewrite ?string_app_nil, ?string_app_cons; intros Heq Hlen.
  - done.
  - subst t1. simpl in Hlen. rewrite string_app_length in Hlen. lia.
  - subst t2. simpl in Hlen. rewrite string_app_length in Hlen. lia.
  - injection Heq as -> Heq. destruct (IH _ Heq Hlen) as [-> ->]. done.
Qed.

(** ** Registry keys *)

Lemma getClientKey_same_client (clientId : string) (a1 a2 : UUID) :
  getClientKey clientId a1 = getClientKey clientId a2 → a1 = a2.
Proof.
  unfold getClientKey. intros H.
  apply string_app_inj_l in H. by apply (string_app_inj_l "-") in H.
Qed.

Lemma getClientKey_same_length (c1 c2 : string) (a1 a2 : UUID) :
  String.length a1 = String.length a2 →
  getClientKey c1 a1 = getClientKey c2 a2 →
  c1 = c2 ∧ a1 = a2.
Proof.
  unfold getClientKey. intros Hlen H.
  apply string_app_inj_length in H as [-> H].
  - split; [done|]. by apply (string_app_inj_l "-") in H.
  - rewrite !string_app_length. simpl. lia.
Qed.

(** C8, as the code has it: the key is a function of the pair, and two
    pairs with the same key are the same pair whenever the two tenant
    identifiers have the same length (as canonical UUIDs do) or the two
    client identifiers are the same; so two different tenants sharing a
    client identifier never get the same key. *)
Theorem getClientKey_injective (c1 c2 : string) (a1 a2 : UUID) :
  String.length a1 = String.length a2 ∨ c1 = c2 →
  getClientKey c1 a1 = getClientKey c2 a2 →
  c1 = c2 ∧ a1 = a2.
Proof.
  intros [Hlen | ->] H.
  - by apply getClientKey_same_length.
  - split; [done|]. by apply getClientKey_same_client in H.
Qed.

Lemma getClientKey_injective_witness :
  getClientKey "default" "a0000000-0000-0000-0000-000000000001"
    = getClientKey "default" "a0000000-0000-0000-0000-000000000001"
  ∧ ("default" = "default"
     ∧ "a0000000-0000-0000-0000-000000000001" = "a0000000-0000-0000-0000-000000000001").
Proof.
  split; [reflexivity|].
  apply (getClientKey_injective "default" "default"
           "a0000000-0000-0000-0000-000000000001" "a0000000-0000-0000-0000-000000000001").
  - left. reflexivity.
  - reflexivity.
Defined.

(** C8, as the specification states it, fails: a hyphen in the client
    identifier can be read as part of the tenant identifier. *)
Lemma getClientKey_collision :
  ("x", "1-2-3-4-5-6") ≠ ("x-1", "2-3-4-5-6")
  ∧ getClientKey "x" "1-2-3-4-5-6" = getClientKey "x-1" "2-3-4-5-6".
Proof. split; [discriminate | reflexivity]. Qed.

(** ** Reasoning about computations *)

Ltac munfold :=
  unfold createClient, createClient_begin, createClient_resume, stopClient,
    stopAllClients_body, createClient_prelude, createClient_store,
    createClient_catch, getClient, new_TwitterClient, TwitterClient_stop,
    new_collaborator, init_call, init_await, getInstance, runtime_config,
    console_log, logger_info, logger_warn, logger_error, emit, alloc, outcome,
    runtime_getSetting, runtime_setSetting, runtime_agentId, runtime_character,
    clients_get, clients_set, clients_delete, clients_entries,
    try_catch, throw, mbind, M_bind, mret, M_ret in *.

Lemma strict_eq_true (a b : Js.val) : Js.strict_eq a b = true ↔ a = b.
Proof. unfold Js.strict_eq. apply bool_decide_eq_true. Qed.

Lemma constructions_snoc (tr : list Event) (e : Event) :
  constructions (tr ++ [e]) = constructions tr + (if is_construct e then 1 else 0).
Proof.
  unfold constructions. rewrite List.filter_app, length_app. simpl.
  by destruct (is_construct e).
Qed.

Lemma inits_snoc (tr : list Event) (e : Event) :
  inits (tr ++ [e]) = inits tr + (if is_init e then 1 else 0).
Proof.
  unfold inits. rewrite List.filter_app, length_app. simpl.
  by destruct (is_init e).
Qed.

Ltac count_events := rewrite ?constructions_snoc, ?inits_snoc; simpl; lia.

(** ** The [Map] *)

Lemma JsMap_get_set {V} (m : list (string * V)) (k : string) (v : V) :
  JsMap.get (JsMap.set m k v) k = Some v.
Proof.
  induction m as [|[k' v'] m IH]; simpl.
  - by rewrite decide_True.
  - destruct (decide (k' = k)) as [->|Hne]; simpl.
    + by rewrite decide_True.
    + by rewrite decide_False.
Qed.

Section CreateClient.
Context {S : Type} `{!Host S} (env : Collab).

(** The reuse path: an existing session is handed back; nothing is
    constructed, initialized or stored. *)
Lemma createClient_reuse (w : World S) (clientId : string) (c : TwitterClient) :
  JsMap.get (clients w) (getClientKey clientId (agentId w)) = Some c →
  ∃ w', createClient env clientId w = (Returned c, w')
    ∧ clients w' = clients w ∧ agentId w' = agentId w ∧ next_oid w' = next_oid w
    ∧ constructions (trace w') = constructions (trace w)
    ∧ inits (trace w') = inits (trace w).
Proof.
  intros Hget. munfold. simpl.
  destruct (Js.strict_eq _ _); simpl; rewrite Hget; simpl;
    (eexists; split; [reflexivity|]; simpl; repeat split; count_events).
Qed.

(** A call that returns on the creation path has constructed and
    initialized one session and stored it under the key. *)
Lemma createClient_fresh (w w' : World S) (clientId : string) (c : TwitterClient) :
  JsMap.get (clients w) (getClientKey clientId (agentId w)) = None →
  createClient env clientId w = (Returned c, w') →
  oid c = next_oid w
  ∧ clients w' = JsMap.set (clients w) (getClientKey clientId (agentId w)) c
  ∧ agentId w' = agentId w
  ∧ constructions (trace w') = constructions (trace w) + 1
  ∧ inits (trace w') = inits (trace w) + 1.
Proof.
  intros Hget. munfold. simpl.
  destruct (Js.strict_eq (getSetting (rt w) "TWITTER_2FA_SECRET") Js.Null); simpl; rewrite Hget; simpl.
  all: destruct (new_outcome env Base _); [discriminate|];
    destruct (new_outcome env Post _); [discriminate|];
    destruct (new_outcome env Interaction _); [discriminate|]; simpl.
  all: destruct (Js.strict_eq _ (Js.Bool true)); simpl.
  all: try (destruct (new_outcome env Space _); [discriminate|]; simpl).
  all: destruct (init_outcome env _); [discriminate|]; simpl.
  all: intros [= <- <-]; simpl; repeat split; count_events.
Qed.
End CreateClient.

Lemma errors_logged_snoc (tr : list Event) (e : Event) :
  errors_logged (tr ++ [e]) =
  (errors_logged tr ++ match e with EvLog Err _ (Some err) => [err] | _ => [] end)%list.
Proof.
  unfold errors_logged. rewrite omap_app. f_equal.
  by destruct e as [|[] ? []| | | | |].
Qed.

Lemma stops_snoc (tr : list Event) (e : Event) :
  stops (tr ++ [e]) = (stops tr ++ match e with EvStop o => [o] | _ => [] end)%list.
Proof. unfold stops. rewrite omap_app. f_equal. by destruct e. Qed.

Ltac trace_simpl :=
  rewrite ?constructions_snoc, ?inits_snoc, ?errors_logged_snoc, ?stops_snoc;
  simpl; rewrite ?app_nil_r, ?Nat.add_0_r.

Section CreateClientClaims.
Context {S : Type} `{!Host S} (env : Collab).

(** A call that throws was on the creation path, the error is the one a
    collaborator raised for the session under construction, it was logged,
    and the registry is as it was. *)
Lemma createClient_throws (w w' : World S) (clientId : string) (e : Error) :
  createClient env clientId w = (Threw e, w') →
  JsMap.get (clients w) (getClientKey clientId (agentId w)) = None
  ∧ ((∃ k, new_outcome env k (next_oid w) = Some e) ∨ init_outcome env (next_oid w) = Some e)
  ∧ clients w' = clients w
  ∧ agentId w' = agentId w
  ∧ next_oid w' = Datatypes.S (next_oid w)
  ∧ errors_logged (trace w') = (errors_logged (trace w) ++ [e])%list.
Proof.
  munfold. simpl.
  destruct (Js.strict_eq (getSetting (rt w) "TWITTER_2FA_SECRET") Js.Null); simpl.
  all: destruct (JsMap.get _ _) eqn:Hget; simpl; [discriminate|].
  all: destruct (new_outcome env Base _) eqn:HB; simpl.
  all: try destruct (new_outcome env Post _) eqn:HP; simpl.
  all: try destruct (new_outcome env Interaction _) eqn:HI; simpl.
  all: try destruct (Js.strict_eq _ (Js.Bool true)); simpl.
  all: try destruct (new_outcome env Space _) eqn:HS; simpl.
  all: try destruct (init_outcome env _) eqn:Hinit; simpl.
  all: intros [= <- <-]; simpl.
  all: repeat split; eauto; trace_simpl; try done.
Qed.


(** C4. Two calls in a row for the same pair: if the first returns a
    session, the second returns that same session and constructs,
    initializes and stores nothing; over both calls one session is
    constructed and one [init] is made when the key was free, none when it
    was taken. *)
Theorem createClient_twice (w w1 : World S) (clientId : string) (c1 : TwitterClient) :
  createClient env clientId w = (Returned c1, w1) →
  ∃ w2, createClient env clientId w1 = (Returned c1, w2)
    ∧ clients w2 = clients w1
    ∧ constructions (trace w2) = constructions (trace w1)
    ∧ inits (trace w2) = inits (trace w1)
    ∧ constructions (trace w2) = constructions (trace w) +
        match JsMap.get (clients w) (getClientKey clientId (agentId w)) with
        | Some _ => 0
        | None => 1
        end
    ∧ inits (trace w2) = inits (trace w) +
        match JsMap.get (clients w) (getClientKey clientId (agentId w)) with
        | Some _ => 0
        | None => 1
        end.
Proof.
  intros Hfirst.
  destruct (JsMap.get (clients w) (getClientKey clientId (agentId w))) as [c|] eqn:Hget.
  - destruct (createClient_reuse env w clientId c Hget) as (w1' & Hrun & Hcl & Hag & _ & Hc & Hi).
    rewrite Hrun in Hfirst. injection Hfirst as -> ->.
    rewrite <- Hcl, <- Hag in Hget.
    destruct (createClient_reuse env w1 clientId c1 Hget) as (w2 & Hrun2 & Hcl2 & _ & _ & Hc2 & Hi2).
    exists w2. repeat split; try done; lia.
  - destruct (createClient_fresh env w w1 clientId c1 Hget Hfirst) as (_ & Hcl & Hag & Hc & Hi).
    assert (Hget1 : JsMap.get (clients w1) (getClientKey clientId (agentId w1)) = Some c1).
    { rewrite Hcl, Hag. apply JsMap_get_set. }
    destruct (createClient_reuse env w1 clientId c1 Hget1) as (w2 & Hrun2 & Hcl2 & _ & _ & Hc2 & Hi2).
    exists w2. repeat split; try done; lia.
Qed.

(** On the creation path, the first error a collaborator raises is thrown
    by [createClient], after being logged; the registry is not written. *)
Lemma createClient_fails (w : World S) (clientId : string) (e : Error) :
  JsMap.get (clients w) (getClientKey clientId (agentId w)) = None →
  first_failure env
    (Js.strict_eq
       (getSetting (rt (createClient_prelude clientId w).2) "TWITTER_SPACES_ENABLE")
       (Js.Bool true))
    (next_oid w) = Some e →
  ∃ w', createClient env clientId w = (Threw e, w')
    ∧ clients w' = clients w
    ∧ agentId w' = agentId w
    ∧ next_oid w' = Datatypes.S (next_oid w)
    ∧ errors_logged (trace w') = (errors_logged (trace w) ++ [e])%list.
Proof.
  intros Hget. unfold first_failure. munfold. simpl.
  destruct (Js.strict_eq (getSetting (rt w) "TWITTER_2FA_SECRET") Js.Null); simpl.
  all: rewrite Hget; simpl.
  all: destruct (new_outcome env Base _); simpl.
  all: try destruct (new_outcome env Post _); simpl.
  all: try destruct (new_outcome env Interaction _); simpl.
  all: try destruct (Js.strict_eq _ (Js.Bool true)); simpl.
  all: try destruct (new_outcome env Space _); simpl.
  all: try destruct (init_outcome env _); simpl.
  all: intros [= <-] || (intros ?; discriminate).
  all: eexists; split; [reflexivity|]; simpl; repeat split; trace_simpl; done.
Qed.

(** [createClient] throws exactly when the key is free and a collaborator
    fails for the session under construction, and what it throws is the
    first error raised. *)
Lemma createClient_throws_iff (w : World S) (clientId : string) (e : Error) :
  (createClient env clientId w).1 = Threw e ↔
  JsMap.get (clients w) (getClientKey clientId (agentId w)) = None
  ∧ first_failure env
      (Js.strict_eq
         (getSetting (rt (createClient_prelude clientId w).2) "TWITTER_SPACES_ENABLE")
         (Js.Bool true))
      (next_oid w) = Some e.
Proof.
  split.
  - unfold first_failure. munfold. simpl.
    destruct (Js.strict_eq (getSetting (rt w) "TWITTER_2FA_SECRET") Js.Null); simpl.
    all: destruct (JsMap.get _ _); simpl; [discriminate|].
    all: destruct (new_outcome env Base _); simpl.
    all: try destruct (new_outcome env Post _); simpl.
    all: try destruct (new_outcome env Interaction _); simpl.
    all: try destruct (Js.strict_eq _ (Js.Bool true)); simpl.
    all: try destruct (new_outcome env Space _); simpl.
    all: try destruct (init_outcome env _); simpl.
    all: intros [= <-] || (intros ?; discriminate).
    all: done.
  - intros [Hget Hfail].
    destruct (createClient_fails w clientId e Hget Hfail) as (w' & Hrun & _).
    by rewrite Hrun.
Qed.


(** C10. When [TWITTER_2FA_SECRET] reads as [null], [createClient] first
    writes it as [undefined], ahead of the lookup in the registry; on the
    reuse path the existing session is returned, nothing is constructed,
    and the runtime is left with the setting written. *)
Theorem createClient_writes_2fa (w : World S) (clientId : string) :
  getSetting (rt w) "TWITTER_2FA_SECRET" = Js.Null →
  ∃ rest,
    trace (createClient env clientId w).2 =
      (trace w ++ [EvConsole ("Creating client " +:+ clientId);
                   EvSetSetting "TWITTER_2FA_SECRET" Js.Undefined false] ++ rest)%list
    ∧ rt (createClient env clientId w).2
        = setSetting (rt w) "TWITTER_2FA_SECRET" Js.Undefined false
    ∧ match JsMap.get (clients w) (getClientKey clientId (agentId w)) with
      | Some c =>
          (createClient env clientId w).1 = Returned c
          ∧ rest = [EvLog Info ("Twitter client already exists for " +:+ clientId) None]
          ∧ clients (createClient env clientId w).2 = clients w
      | None => ∃ rest', rest = EvConsole "*** CREATING NEW CLIENT" :: EvConstruct (next_oid w) :: rest'
      end.
Proof.
  intros Hnull. munfold. simpl. rewrite Hnull. simpl.
  destruct (JsMap.get _ _) eqn:Hget; simpl.
  { eexists. rewrite <- !app_assoc. simpl. repeat split; reflexivity. }
  destruct (new_outcome env Base _); simpl.
  2: destruct (new_outcome env Post _); simpl.
  3: destruct (new_outcome env Interaction _); simpl.
  4: destruct (Js.strict_eq _ (Js.Bool true)); simpl.
  4: destruct (new_outcome env Space _); simpl.
  all: try (destruct (init_outcome env _); simpl).
  all: eexists; rewrite <- !app_assoc; simpl; repeat split; eauto.
Qed.

(** Whatever happens next, [createClient] starts by announcing itself. *)
Lemma createClient_trace_prefix (w : World S) (clientId : string) :
  ∃ rest, trace (createClient env clientId w).2 =
    (trace w ++ [EvConsole ("Creating client " +:+ clientId)] ++ rest)%list.
Proof.
  munfold. simpl.
  destruct (Js.strict_eq (getSetting (rt w) "TWITTER_2FA_SECRET") Js.Null); simpl.
  all: destruct (JsMap.get _ _); simpl.
  all: try (destruct (new_outcome env Base _); simpl).
  all: try (destruct (new_outcome env Post _); simpl).
  all: try (destruct (new_outcome env Interaction _); simpl).
  all: try (destruct (Js.strict_eq _ (Js.Bool true)); simpl).
  all: try (destruct (new_outcome env Space _); simpl).
  all: try (destruct (init_outcome env _); simpl).
  all: eexists; rewrite <- !app_assoc; simpl; reflexivity.
Qed.
End CreateClientClaims.

(** ** Session construction *)

Section Construction.
Context {S : Type} `{!Host S} (env : Collab).

(** C9. A constructed session carries the Spaces controller exactly when
    [TWITTER_SPACES_ENABLE] read as the boolean [true] when the constructor
    ran. *)
Theorem space_iff_enabled (w w' : World S) (c : TwitterClient) :
  new_TwitterClient env w = (Returned c, w') →
  is_Some (space c) ↔ getSetting (rt w) "TWITTER_SPACES_ENABLE" = Js.Bool true.
Proof.
  munfold. simpl.
  destruct (new_outcome env Base _); [discriminate|].
  destruct (new_outcome env Post _); [discriminate|].
  destruct (new_outcome env Interaction _); [discriminate|].
  simpl.
  destruct (Js.strict_eq _ _) eqn:E; simpl.
  - destruct (new_outcome env Space _); [discriminate|].
    intros [= <- <-]. simpl. apply strict_eq_true in E. split; eauto.
  - intros [= <- <-]. simpl. split.
    + intros [? ?]; discriminate.
    + intros E'. apply strict_eq_true in E'. congruence.
Qed.

(** The session [createClient] hands out on the creation path is one the
    constructor built in the world left by the prelude. *)
Lemma createClient_constructs (w w' : World S) (clientId : string) (c : TwitterClient) :
  JsMap.get (clients w) (getClientKey clientId (agentId w)) = None →
  createClient env clientId w = (Returned c, w') →
  is_Some (space c) ↔
    getSetting (rt (createClient_prelude clientId w).2) "TWITTER_SPACES_ENABLE" = Js.Bool true.
Proof.
  intros Hget. munfold. simpl.
  destruct (Js.strict_eq (getSetting (rt w) "TWITTER_2FA_SECRET") Js.Null); simpl; rewrite Hget; simpl.
  all: destruct (new_outcome env Base _); [discriminate|];
    destruct (new_outcome env Post _); [discriminate|];
    destruct (new_outcome env Interaction _); [discriminate|]; simpl.
  all: destruct (Js.strict_eq _ (Js.Bool true)) eqn:E; simpl.
  all: try (destruct (new_outcome env Space _); [discriminate|]; simpl).
  all: destruct (init_outcome env _); [discriminate|]; simpl.
  all: intros [= <- <-]; simpl.
  all: try (apply strict_eq_true in E; split; eauto).
  all: split; [intros [? ?]; discriminate | intros E'; apply strict_eq_true in E'; congruence].
Qed.
End Construction.

(** ** Stopping *)

Lemma JsMap_get_delete {V} (m : list (string * V)) (k : string) :
  JsMap.get (JsMap.delete m k) k = None.
Proof.
  unfold JsMap.delete. induction m as [|[k' v'] m IH]; [done|].
  rewrite filter_cons. simpl. destruct (decide (k' ≠ k)) as [Hne|Heq]; simpl.
  - by rewrite decide_False.
  - done.
Qed.

Lemma JsMap_get_delete_ne {V} (m : list (string * V)) (k k' : string) :
  k ≠ k' → JsMap.get (JsMap.delete m k) k' = JsMap.get m k'.
Proof.
  intros Hne. unfold JsMap.delete. induction m as [|[k0 v0] m IH]; [done|].
  rewrite filter_cons. simpl. destruct (decide (k0 ≠ k)) as [Hne0|Heq0]; simpl.
  - by rewrite IH.
  - apply dec_stable in Heq0. subst k0. by rewrite decide_False.
Qed.

Section Stop.
Context {S : Type} `{!Host S} (env : Collab).

(** What one guarded [stop] does: the session's [stop] is invoked; if it
    returns the entry goes, if it throws the error is logged and the map is
    left alone. Either way the guard completes normally. *)
Lemma stopAllClients_body_spec (key : string) (c : TwitterClient) (w : World S) :
  ∃ w', stopAllClients_body env key c w = (Returned (), w')
    ∧ agentId w' = agentId w
    ∧ clients w' = match stop_outcome env (oid c) with
                   | None => JsMap.delete (clients w) key
                   | Some _ => clients w
                   end
    ∧ stops (trace w') = (stops (trace w) ++ [oid c])%list
    ∧ errors_logged (trace w') =
        (errors_logged (trace w) ++ option_list (stop_outcome env (oid c)))%list.
Proof.
  munfold. simpl. destruct (stop_outcome env (oid c)); simpl.
  all: eexists; split; [reflexivity|]; simpl; repeat split; trace_simpl; done.
Qed.

(** C6, as the code has it. For a key that is present, [stopClient]
    invokes the session's [stop] once and completes without throwing; the
    entry is removed when [stop] returned, and when [stop] threw the entry
    stays and the error is logged. *)
Theorem stopClient_present (w : World S) (clientId : string) (a : UUID) (c : TwitterClient) :
  JsMap.get (clients w) (getClientKey clientId a) = Some c →
  ∃ w', stopClient env clientId a w = (Returned (), w')
    ∧ stops (trace w') = (stops (trace w) ++ [oid c])%list
    ∧ match stop_outcome env (oid c) with
      | None =>
          clients w' = JsMap.delete (clients w) (getClientKey clientId a)
          ∧ JsMap.get (clients w') (getClientKey clientId a) = None
          ∧ errors_logged (trace w') = errors_logged (trace w)
      | Some e =>
          clients w' = clients w
          ∧ JsMap.get (clients w') (getClientKey clientId a) = Some c
          ∧ errors_logged (trace w') = (errors_logged (trace w) ++ [e])%list
      end.
Proof.
  intros Hget. munfold. simpl. rewrite Hget. simpl.
  destruct (stop_outcome env (oid c)); simpl.
  all: eexists; split; [reflexivity|]; simpl; repeat split; trace_simpl; try done.
  apply JsMap_get_delete.
Qed.

(** On a key that is absent [stopClient] does nothing. *)
Lemma stopClient_absent (w : World S) (clientId : string) (a : UUID) :
  JsMap.get (clients w) (getClientKey clientId a) = None →
  stopClient env clientId a w = (Returned (), w).
Proof. intros Hget. munfold. simpl. by rewrite Hget. Qed.
End Stop.

Lemma filter_ext_elem {A} (P Q : A → Prop) `{!∀ x, Decision (P x)} `{!∀ x, Decision (Q x)}
    (l : list A) :
  (∀ x, x ∈ l → P x ↔ Q x) → filter P l = filter Q l.
Proof.
  induction l as [|x l IH]; intros HPQ; [done|].
  rewrite !filter_cons.
  assert (Hx : P x ↔ Q x) by (apply HPQ; left).
  rewrite IH by (intros y Hy; apply HPQ; by right).
  destruct (decide (P x)), (decide (Q x)); tauto.
Qed.

Lemma filter_all {A} (P : A → Prop) `{!∀ x, Decision (P x)} (l : list A) :
  (∀ x, x ∈ l → P x) → filter P l = l.
Proof.
  induction l as [|x l IH]; intros HP; [done|].
  rewrite filter_cons, decide_True by (apply HP; left).
  rewrite IH; [done|]. intros y Hy. apply HP. by right.
Qed.

Lemma JsMap_wf_functional {V} (m : list (string * V)) (k : string) (v1 v2 : V) :
  JsMap.wf m → (k, v1) ∈ m → (k, v2) ∈ m → v1 = v2.
Proof.
  unfold JsMap.wf, JsMap.keys. induction m as [|[k' v'] m IH]; intros Hwf H1 H2.
  - by apply elem_of_nil in H1.
  - rewrite fmap_cons in Hwf. apply NoDup_cons in Hwf as [Hnotin Hwf].
    apply elem_of_cons in H1 as [H1|H1], H2 as [H2|H2].
    + congruence.
    + injection H1 as -> ->. exfalso. apply Hnotin.
      apply list_elem_of_fmap. by exists (k', v2).
    + injection H2 as -> ->. exfalso. apply Hnotin.
      apply list_elem_of_fmap. by exists (k', v1).
    + by apply IH.
Qed.

Lemma JsMap_wf_delete {V} (m : list (string * V)) (k : string) :
  JsMap.wf m → JsMap.wf (JsMap.delete m k).
Proof.
  unfold JsMap.wf, JsMap.keys, JsMap.delete. induction m as [|[k' v'] m IH]; [done|].
  rewrite fmap_cons, filter_cons. intros [Hnotin Hwf]%NoDup_cons.
  destruct (decide _); [|by apply IH].
  rewrite fmap_cons. apply NoDup_cons. split; [|by apply IH].
  intros Hin. apply Hnotin. apply list_elem_of_fmap in Hin as (e & -> & He).
  apply list_elem_of_filter in He as [_ He]. apply list_elem_of_fmap. by exists e.
Qed.

Lemma JsMap_keys_set_in {V} (m : list (string * V)) (k : string) (v : V) :
  k ∈ JsMap.keys m → JsMap.keys (JsMap.set m k v) = JsMap.keys m.
Proof.
  unfold JsMap.keys. induction m as [|[k' v'] m IH]; intros Hin.
  - by apply elem_of_nil in Hin.
  - cbn [JsMap.set]. destruct (decide (k' = k)) as [->|Hne]; [done|].
    rewrite !fmap_cons. rewrite fmap_cons in Hin. f_equal. apply IH.
    apply elem_of_cons in Hin as [Hin|Hin]; [|done]. simpl in Hin. congruence.
Qed.

Lemma JsMap_keys_set_notin {V} (m : list (string * V)) (k : string) (v : V) :
  k ∉ JsMap.keys m → JsMap.keys (JsMap.set m k v) = (JsMap.keys m ++ [k])%list.
Proof.
  unfold JsMap.keys. induction m as [|[k' v'] m IH]; intros Hnotin; [done|].
  cbn [JsMap.set]. rewrite fmap_cons in Hnotin. apply not_elem_of_cons in Hnotin as [Hne Hnotin].
  simpl in Hne. rewrite decide_False by congruence.
  rewrite !fmap_cons, IH by done. done.
Qed.

Lemma JsMap_wf_set {V} (m : list (string * V)) (k : string) (v : V) :
  JsMap.wf m → JsMap.wf (JsMap.set m k v).
Proof.
  unfold JsMap.wf. intros Hwf. destruct (decide (k ∈ JsMap.keys m)) as [Hin|Hnotin].
  - by rewrite JsMap_keys_set_in.
  - rewrite JsMap_keys_set_notin by done.
    apply NoDup_app. split; [done|]. split; [|apply NoDup_singleton].
    intros x Hx Hx'. apply list_elem_of_singleton in Hx'. by subst x.
Qed.

Section StopAll.
Context {S : Type} `{!Host S} (env : Collab).

(** The loop over any list of entries, from any world: it completes
    normally, every session on the list has its [stop] invoked once, in
    order, every failure is logged, and what is deleted from the map is
    what is stored under the keys of the entries whose [stop] returned. *)
Lemma stopAllClients_loop_spec (entries : list (string * TwitterClient)) (w : World S) :
  ∃ w', stopAllClients_loop env entries w = (Returned (), w')
    ∧ clients w' = filter (λ e, e.1 ∉ stopped_keys env entries) (clients w)
    ∧ stops (trace w') = (stops (trace w) ++ (oid ∘ snd <$> entries))%list
    ∧ errors_logged (trace w') =
        (errors_logged (trace w) ++ omap (λ e, stop_outcome env (oid e.2)) entries)%list.
Proof.
  revert w. induction entries as [|[key c] entries IH]; intros w.
  - exists w. simpl. rewrite !app_nil_r. repeat split.
    symmetry. apply filter_all. intros x _. unfold stopped_keys. simpl. set_solver.
  - destruct (stopAllClients_body_spec env key c w) as (w1 & Hbody & _ & Hcl & Hst & Herr).
    destruct (IH w1) as (w' & Hloop & Hcl' & Hst' & Herr').
    exists w'. split.
    { simpl. unfold mbind, M_bind. by rewrite Hbody. }
    split; [|split].
    + rewrite Hcl', Hcl. unfold stopped_keys. rewrite filter_cons. simpl.
      destruct (stop_outcome env (oid c)) eqn:Hout.
      * rewrite decide_False by done. done.
      * rewrite decide_True by done. unfold JsMap.delete. rewrite list_filter_filter.
        apply list_filter_iff. intros [k c']. simpl.
        rewrite not_elem_of_cons. tauto.
    + rewrite Hst', Hst. rewrite <- app_assoc. done.
    + rewrite Herr', Herr. rewrite <- app_assoc. simpl.
      by destruct (stop_outcome env (oid c)).
Qed.

(** C7. [stopAllClients] completes without throwing whatever the sessions
    do; every entry has its [stop] attempted once, in insertion order; each
    failure is logged and the iteration goes on; the entries left in the
    registry are exactly those whose [stop] threw. *)
Theorem stopAllClients_isolation (w : World S) :
  JsMap.wf (clients w) →
  ∃ w', stopAllClients env w = (Returned (), w')
    ∧ clients w' = filter (λ e, is_Some (stop_outcome env (oid e.2))) (clients w)
    ∧ stops (trace w') = (stops (trace w) ++ (oid ∘ snd <$> clients w))%list
    ∧ errors_logged (trace w') =
        (errors_logged (trace w) ++ omap (λ e, stop_outcome env (oid e.2)) (clients w))%list.
Proof.
  intros Hwf.
  destruct (stopAllClients_loop_spec (clients w) w) as (w' & Hloop & Hcl & Hst & Herr).
  exists w'. split; [exact Hloop|]. split; [|done].
  rewrite Hcl. apply filter_ext_elem. intros [k c] Hin. simpl.
  unfold stopped_keys. rewrite list_elem_of_fmap. split.
  - intros Hnot. destruct (stop_outcome env (oid c)) eqn:Hout; [done|].
    exfalso. apply Hnot. exists (k, c). split; [done|].
    apply list_elem_of_filter. done.
  - intros [e He] ([k' c'] & Hk & Hin'). simpl in Hk. subst k'.
    apply list_elem_of_filter in Hin' as [Hnone Hin']. simpl in Hnone.
    rewrite (JsMap_wf_functional _ k c c' Hwf Hin Hin') in He. congruence.
Qed.
End StopAll.

(** ** Credentials and the plugin boundary *)

Lemma truthy_and (a b : Js.val) :
  Js.truthy (a &&& b) = Js.truthy a && Js.truthy b.
Proof. unfold Js.and. by destruct (Js.truthy a) eqn:E; simpl. Qed.

Lemma truthy_defined (v : Js.val) : Js.truthy v = true → Js.defined v = true.
Proof. by destruct v. Qed.

Section PluginProperties.
Context {S : Type} `{!Host S} (env : Collab).

Lemma config_lookup (s : S) (key : string) :
  key ∈ (twitterConfig s).*1 →
  config s !! key =
    if decide (resolve s key = Js.Undefined) then None else Some (resolve s key).
Proof.
  intros Hkey. unfold config, twitterConfig in *. simpl in Hkey.
  rewrite !filter_cons, filter_nil. simpl.
  repeat (apply elem_of_cons in Hkey as [->|Hkey]).
  5: by apply elem_of_nil in Hkey.
  all: generalize (resolve s "TWITTER_USERNAME") (resolve s "TWITTER_PASSWORD")
         (resolve s "TWITTER_EMAIL") (resolve s "TWITTER_2FA_SECRET"); intros u p e t.
  all: destruct (decide (u ≠ Js.Undefined)), (decide (p ≠ Js.Undefined)),
         (decide (e ≠ Js.Undefined)), (decide (t ≠ Js.Undefined)); simpl.
  all: simplify_map_eq; try case_decide; try done.
Qed.

(** C2, as the code has it. Each credential field resolves to the value of
    the first source that is truthy, runtime setting before character
    setting, and to the character secret, whatever it is, when neither of
    those is; the sources after a truthy one play no part. A field that
    resolves to [undefined] is left out of the configuration, and any other
    value is stored under the field as it is. *)
Theorem resolve_precedence (s : S) (key : string) :
  key ∈ ["TWITTER_USERNAME"; "TWITTER_PASSWORD"; "TWITTER_EMAIL"; "TWITTER_2FA_SECRET"] →
  resolve s key =
    (if Js.truthy (getSetting s key) then getSetting s key
     else if Js.truthy (Js.opt_get (settings (character s)) key)
          then Js.opt_get (settings (character s)) key
          else Js.opt_get (secrets (character s)) key)
  ∧ config s !! key =
      (if decide (resolve s key = Js.Undefined) then None else Some (resolve s key)).
Proof.
  intros Hkey. split.
  - unfold resolve, Js.or.
    destruct (Js.truthy (getSetting s key)) eqn:Ha; rewrite ?Ha; [done|].
    by destruct (Js.truthy (Js.opt_get (settings (character s)) key)) eqn:Hb; rewrite ?Hb.
  - by apply config_lookup.
Qed.

(** Where the runtime setting and the character setting are each either
    [undefined] or truthy, the code and the wording of the specification
    agree. *)
Lemma resolve_first_defined (s : S) (key : string) :
  Forall (λ v, v = Js.Undefined ∨ Js.truthy v = true)
    [getSetting s key; Js.opt_get (settings (character s)) key] →
  resolve s key =
    Spec.first_defined [getSetting s key; Js.opt_get (settings (character s)) key;
                        Js.opt_get (secrets (character s)) key].
Proof.
  unfold resolve, Js.or.
  generalize (getSetting s key) (Js.opt_get (settings (character s)) key)
    (Js.opt_get (secrets (character s)) key).
  intros a b c Hall.
  apply Forall_cons in Hall as [Ha Hall]. apply Forall_cons in Hall as [Hb _].
  assert (Hc : (if Js.defined c then c else Js.Undefined) = c) by (by destruct c).
  simpl. rewrite Hc.
  destruct Ha as [-> | Ha], Hb as [-> | Hb]; simpl;
    rewrite ?Ha, ?Hb, ?(truthy_defined _ Ha), ?(truthy_defined _ Hb); done.
Qed.

Lemma enough_settings_truthy (cfg : gmap string Js.val) :
  enough_settings cfg =
    Js.truthy (Js.get cfg "TWITTER_USERNAME")
    && Js.truthy (Js.get cfg "TWITTER_PASSWORD")
    && Js.truthy (Js.get cfg "TWITTER_EMAIL").
Proof. unfold enough_settings. rewrite !truthy_and. by rewrite andb_assoc. Qed.

(** C3, as the code has it. The check that gates the default session holds
    exactly when username, password and email each have a truthy value in
    the configuration; the two-factor secret plays no part; [start] always
    returns its handle, and when the check fails it constructs, initializes
    and stores nothing, while when it holds [createClient] is entered for
    the default client. *)
Theorem start_sufficiency (w : World S) :
  (enough_settings (config (rt w)) = true ↔
     Js.truthy (Js.get (config (rt w)) "TWITTER_USERNAME") = true
     ∧ Js.truthy (Js.get (config (rt w)) "TWITTER_PASSWORD") = true
     ∧ Js.truthy (Js.get (config (rt w)) "TWITTER_EMAIL") = true)
  ∧ (∀ cfg o, enough_settings (partial_alter (λ _, o) "TWITTER_2FA_SECRET" cfg)
              = enough_settings cfg)
  ∧ ∃ w', start env w = (Returned clientInstance, w')
      ∧ if enough_settings (config (rt w))
        then ∃ rest, trace w' =
               (trace w ++ [EvConsole "*** STARTING TWITTER CLIENT"; EvConsole "*** RUNTIME";
                            EvConsole "*** TWITTER CONFIG";
                            EvLog Info "Creating default Twitter client from character settings" None;
                            EvConsole "*** CREATING DEFAULT CLIENT";
                            EvConsole ("Creating client " +:+ stringToUuid "default")] ++ rest)%list
        else clients w' = clients w ∧ rt w' = rt w
             ∧ constructions (trace w') = constructions (trace w)
             ∧ inits (trace w') = inits (trace w).
Proof.
  split; [|split].
  - rewrite enough_settings_truthy, !andb_true_iff. tauto.
  - intros cfg o. rewrite !enough_settings_truthy. unfold Js.get.
    by rewrite !lookup_partial_alter_ne.
  - unfold start, runtime_config, getInstance, console_log, logger_info, logger_error,
      emit, try_catch, mbind, M_bind, mret, M_ret. simpl.
    destruct (enough_settings (config (rt w))).
    + destruct (createClient_trace_prefix env
                  (mkWorld (agentId w) (rt w) true (clients w) (next_oid w)
                     (((((trace w ++ [EvConsole "*** STARTING TWITTER CLIENT"])
                          ++ [EvConsole "*** RUNTIME"]) ++ [EvConsole "*** TWITTER CONFIG"])
                        ++ [EvLog Info "Creating default Twitter client from character settings" None])
                       ++ [EvConsole "*** CREATING DEFAULT CLIENT"]))
                  (stringToUuid "default")) as (rest & Hrest).
      destruct (createClient env _ _) as [[c|e] w1]; simpl in *.
      * eexists. split; [reflexivity|]. exists rest. rewrite Hrest.
        rewrite <- !app_assoc. done.
      * eexists. split; [reflexivity|]. simpl. eexists. rewrite Hrest.
        rewrite <- !app_assoc. simpl. reflexivity.
    + eexists. split; [reflexivity|]. simpl. repeat split; trace_simpl; done.
Qed.
End PluginProperties.

(** ** Calls in flight together *)


Section Stretches.
Context {S : Type} `{!Host S} (env : Collab).

(** Run without interruption, the two stretches make up [createClient]. *)
Lemma createClient_begin_resume (clientId : string) (w : World S) :
  createClient env clientId w =
  (s ← createClient_begin env clientId;
   match s with
   | Resolved c => mret c
   | AwaitingInit c => createClient_resume env clientId c
   end) w.
Proof.
  munfold. simpl.
  destruct (Js.strict_eq (getSetting (rt w) "TWITTER_2FA_SECRET") Js.Null); simpl.
  all: destruct (JsMap.get _ _); simpl; [done|].
  all: destruct (new_outcome env Base _); simpl; [done|].
  all: destruct (new_outcome env Post _); simpl; [done|].
  all: destruct (new_outcome env Interaction _); simpl; [done|].
  all: destruct (Js.strict_eq _ (Js.Bool true)); simpl.
  all: try (destruct (new_outcome env Space _); simpl; [done|]).
  all: destruct (init_outcome env _); simpl; done.
Qed.

(** The first stretch never writes the registry. *)
Lemma createClient_begin_clients (clientId : string) (w : World S) :
  clients (createClient_begin env clientId w).2 = clients w.
Proof.
  munfold. simpl.
  destruct (Js.strict_eq (getSetting (rt w) "TWITTER_2FA_SECRET") Js.Null); simpl.
  all: destruct (JsMap.get _ _); simpl; [done|].
  all: destruct (new_outcome env Base _); simpl; [done|].
  all: destruct (new_outcome env Post _); simpl; [done|].
  all: destruct (new_outcome env Interaction _); simpl; [done|].
  all: destruct (Js.strict_eq _ (Js.Bool true)); simpl.
  all: try (destruct (new_outcome env Space _); simpl; [done|]).
  all: done.
Qed.


End Stretches.

Section Concurrent.
Context {S : Type} `{!Host S} (env : Collab) (clientId : string).
Hypothesis new_ok : ∀ k o, new_outcome env k o = None.
Hypothesis init_ok : ∀ o, init_outcome env o = None.



End Concurrent.

(** * The code on concrete inputs *)

Module Examples.
Import Fixture.

(** Two calls in a row on a fresh registry. *)
Lemma createClient_twice_witness :
  createClient reliable "default" fresh
    = (Returned (session 0), (createClient reliable "default" fresh).2)
  ∧ ∃ w2, createClient reliable "default" (createClient reliable "default" fresh).2
            = (Returned (session 0), w2)
    ∧ clients w2 = clients (createClient reliable "default" fresh).2
    ∧ constructions (trace w2) = constructions (trace (createClient reliable "default" fresh).2)
    ∧ inits (trace w2) = inits (trace (createClient reliable "default" fresh).2)
    ∧ constructions (trace w2) = constructions (trace fresh) +
        match JsMap.get (clients fresh) (getClientKey "default" (agentId fresh)) with
        | Some _ => 0
        | None => 1
        end
    ∧ inits (trace w2) = inits (trace fresh) +
        match JsMap.get (clients fresh) (getClientKey "default" (agentId fresh)) with
        | Some _ => 0
        | None => 1
        end.
Proof.
  assert (H1 : createClient reliable "default" fresh
    = (Returned (session 0), (createClient reliable "default" fresh).2))
    by (vm_compute; reflexivity).
  split; [exact H1|].
  exact (createClient_twice reliable fresh _ "default" (session 0) H1).
Defined.


(** A constructor that throws: nothing is initialized, nothing is stored,
    and the caller gets the constructor's error. *)
Example createClient_constructor_throws :
  (createClient
     {| new_outcome := λ k _, if decide (k = Post) then Some "no poster" else None;
        init_outcome := λ _, None; stop_outcome := λ _, None |}
     "default" fresh).1 = Threw "no poster"
  ∧ clients (createClient
       {| new_outcome := λ k _, if decide (k = Post) then Some "no poster" else None;
          init_outcome := λ _, None; stop_outcome := λ _, None |}
       "default" fresh).2 = []
  ∧ inits (trace (createClient
       {| new_outcome := λ k _, if decide (k = Post) then Some "no poster" else None;
          init_outcome := λ _, None; stop_outcome := λ _, None |}
       "default" fresh).2) = 0.
Proof. repeat split; vm_compute; reflexivity. Qed.

(** The reuse path with [TWITTER_2FA_SECRET] reading as [null]. *)
Lemma createClient_writes_2fa_witness :
  getSetting (rt settled) "TWITTER_2FA_SECRET" = Js.Null
  ∧ ∃ rest,
    trace (createClient reliable "default" settled).2 =
      (trace settled ++ [EvConsole ("Creating client " +:+ "default");
                         EvSetSetting "TWITTER_2FA_SECRET" Js.Undefined false] ++ rest)%list
    ∧ rt (createClient reliable "default" settled).2
        = setSetting (rt settled) "TWITTER_2FA_SECRET" Js.Undefined false
    ∧ match JsMap.get (clients settled) (getClientKey "default" (agentId settled)) with
      | Some c =>
          (createClient reliable "default" settled).1 = Returned c
          ∧ rest = [EvLog Info ("Twitter client already exists for " +:+ "default") None]
          ∧ clients (createClient reliable "default" settled).2 = clients settled
      | None => ∃ rest', rest = EvConsole "*** CREATING NEW CLIENT"
                                :: EvConstruct (next_oid settled) :: rest'
      end.
Proof.
  split; [reflexivity|].
  apply (createClient_writes_2fa reliable settled "default"). reflexivity.
Defined.

(** On that reuse path the runtime is not what it was: the setting now
    reads as [undefined]. *)
Example createClient_reuse_changes_runtime :
  (createClient reliable "default" settled).1 = Returned (session 0)
  ∧ constructions (trace (createClient reliable "default" settled).2) = 0
  ∧ rt (createClient reliable "default" settled).2 ≠ rt settled
  ∧ getSetting (rt (createClient reliable "default" settled).2) "TWITTER_2FA_SECRET"
      = Js.Undefined.
Proof. repeat split; try reflexivity. discriminate. Qed.

(** A session constructed while [TWITTER_SPACES_ENABLE] is [true]. *)
Lemma space_iff_enabled_witness :
  new_TwitterClient reliable
      (world (runtime [("TWITTER_SPACES_ENABLE", Js.Bool true)] no_character) [] 0)
    = (Returned (session_with_space 0),
       (new_TwitterClient reliable
          (world (runtime [("TWITTER_SPACES_ENABLE", Js.Bool true)] no_character) [] 0)).2)
  ∧ (is_Some (space (session_with_space 0)) ↔
       getSetting (rt (world (runtime [("TWITTER_SPACES_ENABLE", Js.Bool true)] no_character) [] 0))
         "TWITTER_SPACES_ENABLE" = Js.Bool true).
Proof.
  assert (H1 : new_TwitterClient reliable
      (world (runtime [("TWITTER_SPACES_ENABLE", Js.Bool true)] no_character) [] 0)
    = (Returned (session_with_space 0),
       (new_TwitterClient reliable
          (world (runtime [("TWITTER_SPACES_ENABLE", Js.Bool true)] no_character) [] 0)).2))
    by (vm_compute; reflexivity).
  split; [exact H1|].
  exact (space_iff_enabled reliable _ _ _ H1).
Defined.

(** Absent, [false], the string ["true"] and the number 1 all leave the
    controller out. *)
Example space_absent_unless_true :
  Forall (λ st, (new_TwitterClient reliable (world (runtime st no_character) [] 0)).1
                = Returned (session 0))
    [ []; [("TWITTER_SPACES_ENABLE", Js.Bool false)];
      [("TWITTER_SPACES_ENABLE", Js.Str "true")]; [("TWITTER_SPACES_ENABLE", Js.Num 1)] ].
Proof. repeat constructor. Qed.

(** A present key whose session refuses to stop. *)
Lemma stopClient_present_witness :
  JsMap.get (clients pair) (getClientKey "a" "agent") = Some (session 0)
  ∧ ∃ w', stopClient stubborn "a" "agent" pair = (Returned (), w')
    ∧ stops (trace w') = (stops (trace pair) ++ [oid (session 0)])%list
    ∧ match stop_outcome stubborn (oid (session 0)) with
      | None =>
          clients w' = JsMap.delete (clients pair) (getClientKey "a" "agent")
          ∧ JsMap.get (clients w') (getClientKey "a" "agent") = None
          ∧ errors_logged (trace w') = errors_logged (trace pair)
      | Some e =>
          clients w' = clients pair
          ∧ JsMap.get (clients w') (getClientKey "a" "agent") = Some (session 0)
          ∧ errors_logged (trace w') = (errors_logged (trace pair) ++ [e])%list
      end.
Proof.
  split; [reflexivity|].
  apply (stopClient_present stubborn pair "a" "agent" (session 0)). reflexivity.
Defined.

(** C6, as the specification words it, fails: the entry is not removed
    "regardless of whether stop reported an error". Here [stop] throws and
    the entry is still there afterwards. *)
Lemma stopClient_keeps_entry_on_error :
  JsMap.get (clients pair) (getClientKey "a" "agent") = Some (session 0)
  ∧ stop_outcome stubborn (oid (session 0)) = Some "stop failed"
  ∧ (stopClient stubborn "a" "agent" pair).1 = Returned ()
  ∧ JsMap.get (clients (stopClient stubborn "a" "agent" pair).2) (getClientKey "a" "agent")
      = Some (session 0)
  ∧ ¬ (JsMap.get (clients (stopClient stubborn "a" "agent" pair).2) (getClientKey "a" "agent")
         = None).
Proof. repeat split; try reflexivity. discriminate. Qed.

(** Two entries, the first refusing to stop. *)
Lemma stopAllClients_isolation_witness :
  JsMap.wf (clients pair)
  ∧ ∃ w', stopAllClients stubborn pair = (Returned (), w')
    ∧ clients w' = filter (λ e, is_Some (stop_outcome stubborn (oid e.2))) (clients pair)
    ∧ stops (trace w') = (stops (trace pair) ++ (oid ∘ snd <$> clients pair))%list
    ∧ errors_logged (trace w') =
        (errors_logged (trace pair)
           ++ omap (λ e, stop_outcome stubborn (oid e.2)) (clients pair))%list.
Proof.
  assert (Hwf : JsMap.wf (clients pair)).
  { unfold JsMap.wf. apply (bool_decide_unpack _). vm_compute. exact I. }
  split; [exact Hwf|].
  exact (stopAllClients_isolation stubborn pair Hwf).
Defined.

Example stopAllClients_pair :
  clients (stopAllClients stubborn pair).2 = [(getClientKey "a" "agent", session 0)]
  ∧ stops (trace (stopAllClients stubborn pair).2) = [0; 1]
  ∧ errors_logged (trace (stopAllClients stubborn pair).2) = ["stop failed"].
Proof. repeat split; reflexivity. Qed.

(** Runtime setting over character setting. *)
Lemma resolve_precedence_witness :
  "TWITTER_USERNAME" ∈ ["TWITTER_USERNAME"; "TWITTER_PASSWORD"; "TWITTER_EMAIL";
                         "TWITTER_2FA_SECRET"]
  ∧ resolve layered "TWITTER_USERNAME" =
      (if Js.truthy (getSetting layered "TWITTER_USERNAME")
       then getSetting layered "TWITTER_USERNAME"
       else if Js.truthy (Js.opt_get (settings (character layered)) "TWITTER_USERNAME")
            then Js.opt_get (settings (character layered)) "TWITTER_USERNAME"
            else Js.opt_get (secrets (character layered)) "TWITTER_USERNAME")
  ∧ config layered !! "TWITTER_USERNAME" =
      (if decide (resolve layered "TWITTER_USERNAME" = Js.Undefined) then None
       else Some (resolve layered "TWITTER_USERNAME")).
Proof.
  assert (Hin : "TWITTER_USERNAME" ∈ ["TWITTER_USERNAME"; "TWITTER_PASSWORD"; "TWITTER_EMAIL";
                                       "TWITTER_2FA_SECRET"]) by left.
  split; [exact Hin|].
  apply (resolve_precedence layered "TWITTER_USERNAME" Hin).
Defined.

(** The two examples of the specification. *)
Example resolve_examples :
  resolve layered "TWITTER_USERNAME" = Js.Str "a"
  ∧ resolve blank_username "TWITTER_EMAIL" = Js.Str "e@x.com"
  ∧ config bare = ∅.
Proof. repeat split; reflexivity. Qed.

(** C2, as the specification words it, fails: a runtime setting that is
    defined but empty does not win; the character setting behind it does. *)
Lemma resolve_not_first_defined :
  getSetting shadowed "TWITTER_USERNAME" = Js.Str ""
  ∧ Js.defined (getSetting shadowed "TWITTER_USERNAME") = true
  ∧ Spec.first_defined
      [getSetting shadowed "TWITTER_USERNAME";
       Js.opt_get (settings (character shadowed)) "TWITTER_USERNAME";
       Js.opt_get (secrets (character shadowed)) "TWITTER_USERNAME"] = Js.Str ""
  ∧ resolve shadowed "TWITTER_USERNAME" = Js.Str "b"
  ∧ resolve shadowed "TWITTER_USERNAME" ≠
      Spec.first_defined
        [getSetting shadowed "TWITTER_USERNAME";
         Js.opt_get (settings (character shadowed)) "TWITTER_USERNAME";
         Js.opt_get (secrets (character shadowed)) "TWITTER_USERNAME"].
Proof. repeat split; try reflexivity. vm_compute. discriminate. Qed.

(** C3, as the specification words it, fails: with an empty username in
    the character secrets all three fields are present in the resolved
    configuration, yet the check does not hold and no session is made. *)
Lemma enough_settings_not_presence :
  Spec.sufficient (config blank_username)
  ∧ enough_settings (config blank_username) = false
  ∧ clients (start reliable (world blank_username [] 0)).2 = []
  ∧ constructions (trace (start reliable (world blank_username [] 0)).2) = 0.
Proof.
  split; [|repeat split; reflexivity].
  unfold Spec.sufficient. repeat split; eexists; vm_compute; reflexivity.
Qed.

Example start_creates_default :
  clients (start reliable
             (world (runtime [("TWITTER_USERNAME", Js.Str "a"); ("TWITTER_PASSWORD", Js.Str "p");
                              ("TWITTER_EMAIL", Js.Str "e@x.com")] no_character) [] 0)).2
    = [(getClientKey "default" "agent", session 0)]
  ∧ clients (start reliable
               (world (runtime [("TWITTER_USERNAME", Js.Str "a")] no_character) [] 0)).2 = [].
Proof. split; reflexivity. Qed.


End Examples.
